(** * opencv4nodejs binding layer: face recognizers, trackers, module registration

    A shallow embedding of the wrapper classes
      cc/face/EigenFaceRecognizer.h, cc/face/LBPHFaceRecognizer.h,
      cc/tracking/Trackers/TrackerMOSSE.h, cc/tracking/Trackers/TrackerGOTURN.h
    and of the module registration functions
      cc/objdetect/objdetect.cc, cc/xfeatures2d/xfeatures2d.cc.

    The wrapped OpenCV library is external.  A member function is a program
    that reads and assigns the fields of [this] and calls into the library;
    the meaning of the calls is given by an arbitrary [Library] (a state, a
    type of exceptions and a handler), so that a theorem about a wrapper holds
    whatever the native library does. *)

From stdpp Require Import base strings gmap list.

(** ** Build configuration and preprocessor *)

(** The OpenCV version the binding is compiled against. *)
Record Config := mkConfig {
  CV_VERSION_MAJOR : nat;
  CV_VERSION_MINOR : nat;
  CV_VERSION_REVISION : nat
}.

(** Modelled from the spec: the macro CV_VERSION_GREATER_EQUAL is defined in a
    header of the binding that is not among the sources; it is taken to be what
    its name and its uses say, the lexicographic comparison of the OpenCV
    version triple with (major, minor, revision). *)
Definition CV_VERSION_GREATER_EQUAL (cfg : Config) (major minor revision : nat) : bool :=
  ((major <? CV_VERSION_MAJOR cfg)
   || ((CV_VERSION_MAJOR cfg =? major)
       && ((minor <? CV_VERSION_MINOR cfg)
           || ((CV_VERSION_MINOR cfg =? minor) && (revision <=? CV_VERSION_REVISION cfg)))))%nat.

(** The same order, as a proposition on triples. *)
Definition version_at_least (cfg : Config) (major minor revision : nat) : Prop :=
  major < CV_VERSION_MAJOR cfg
  ∨ (CV_VERSION_MAJOR cfg = major
     ∧ (minor < CV_VERSION_MINOR cfg
        ∨ (CV_VERSION_MINOR cfg = minor ∧ revision ≤ CV_VERSION_REVISION cfg))).

(** Members of a class declaration. *)
Inductive MemberKind :=
  | DataMember        (* cv::Ptr<...> field *)
  | MemberFunction    (* non-static member function, defined in the class *)
  | StaticFunction    (* static NAN_MODULE_INIT(...) / static NAN_METHOD(...) *)
  | StaticData        (* static Nan::Persistent<...> *)
  | NestedType.       (* struct declared inside the class *)

Global Instance MemberKind_eq_dec : EqDecision MemberKind.
Proof. solve_decision. Defined.

Record Member := mkMember { m_kind : MemberKind; m_name : string }.

Record ClassDecl := mkClass {
  c_name : string;
  c_base : string;
  c_members : list Member
}.

(** What a translation unit contributes once preprocessed. *)
Inductive Item :=
  | ClassDef (c : ClassDecl)
  | FunctionDef (name : string).

Inductive Cond :=
  | IfVersionGE (major minor revision : nat)   (* #if CV_VERSION_GREATER_EQUAL(a, b, c) *)
  | IfDef (macro : string)                     (* #ifdef M *)
  | IfNDef (macro : string).                   (* #ifndef M *)

#[warnings="-register-all"] Inductive Directive :=
  | PInclude (file : string)
  | PDefine (macro : string)
  | PIf (c : Cond) (body : list Directive)
  | PItem (i : Item).

Definition eval_cond (cfg : Config) (macros : gset string) (c : Cond) : bool :=
  match c with
  | IfVersionGE a b r => CV_VERSION_GREATER_EQUAL cfg a b r
  | IfDef m => bool_decide (m ∈ macros)
  | IfNDef m => negb (bool_decide (m ∈ macros))
  end.

(** Preprocessing threads the set of defined macros.  The included headers are
    outside the sources: what they define (HAVE_OPENCV_..., earlier include
    guards) is already in [macros] when the file is entered. *)
Fixpoint preprocess1 (cfg : Config) (d : Directive) (macros : gset string)
  : gset string * list Item :=
  match d with
  | PInclude _ => (macros, [])
  | PDefine m => ({[ m ]} ∪ macros, [])
  | PItem i => (macros, [i])
  | PIf c body =>
      if eval_cond cfg macros c then
        (fix go (ds : list Directive) (macros : gset string) : gset string * list Item :=
           match ds with
           | [] => (macros, [])
           | d :: ds =>
               let '(macros1, items1) := preprocess1 cfg d macros in
               let '(macros2, items2) := go ds macros1 in
               (macros2, items1 ++ items2)
           end) body macros
      else (macros, [])
  end.

Fixpoint preprocess (cfg : Config) (ds : list Directive) (macros : gset string)
  : gset string * list Item :=
  match ds with
  | [] => (macros, [])
  | d :: ds =>
      let '(macros1, items1) := preprocess1 cfg d macros in
      let '(macros2, items2) := preprocess cfg ds macros1 in
      (macros2, items1 ++ items2)
  end.

Definition items_of (cfg : Config) (file : list Directive) (macros : gset string) : list Item :=
  (preprocess cfg file macros).2.

Definition defines_class (name : string) (items : list Item) : bool :=
  existsb (λ i, match i with ClassDef c => String.eqb (c_name c) name | _ => false end) items.

Definition defines_function (name : string) (items : list Item) : bool :=
  existsb (λ i, match i with FunctionDef f => String.eqb f name | _ => false end) items.

(** ** The source files, as the preprocessor sees them *)

Definition EigenFaceRecognizer_class : ClassDecl :=
  mkClass "EigenFaceRecognizer" "FaceRecognizer"
    [ mkMember DataMember "faceRecognizer";
      mkMember MemberFunction "save";
      mkMember MemberFunction "load";
      mkMember StaticFunction "Init";
      mkMember StaticFunction "New";
      mkMember StaticData "constructor";
      mkMember MemberFunction "getFaceRecognizer" ].

Definition LBPHFaceRecognizer_class : ClassDecl :=
  mkClass "LBPHFaceRecognizer" "FaceRecognizer"
    [ mkMember DataMember "faceRecognizer";
      mkMember MemberFunction "save";
      mkMember MemberFunction "load";
      mkMember StaticFunction "Init";
      mkMember NestedType "NewWorker";
      mkMember StaticFunction "New";
      mkMember StaticData "constructor";
      mkMember MemberFunction "getFaceRecognizer" ].

Definition TrackerMOSSE_class : ClassDecl :=
  mkClass "TrackerMOSSE" "Tracker"
    [ mkMember DataMember "tracker";
      mkMember StaticFunction "Init";
      mkMember StaticFunction "New";
      mkMember StaticData "constructor";
      mkMember MemberFunction "getTracker" ].

Definition TrackerGOTURN_class : ClassDecl :=
  mkClass "TrackerGOTURN" "Tracker"
    [ mkMember DataMember "tracker";
      mkMember StaticFunction "Init";
      mkMember StaticFunction "New";
      mkMember StaticData "constructor";
      mkMember MemberFunction "getTracker" ].

Definition EigenFaceRecognizer_h : list Directive :=
  [ PInclude "FaceRecognizer.h";
    PIf (IfNDef "__FF_EIGENFACERECOGNIZER_H__")
      [ PDefine "__FF_EIGENFACERECOGNIZER_H__";
        PItem (ClassDef EigenFaceRecognizer_class) ] ].

Definition LBPHFaceRecognizer_h : list Directive :=
  [ PInclude "FaceRecognizer.h";
    PIf (IfNDef "__FF_LBPHFACERECOGNIZER_H__")
      [ PDefine "__FF_LBPHFACERECOGNIZER_H__";
        PItem (ClassDef LBPHFaceRecognizer_class) ] ].

Definition TrackerMOSSE_h : list Directive :=
  [ PInclude "../Tracker.h";
    PIf (IfVersionGE 3 4 0)
      [ PIf (IfNDef "__FF_TRACKERMOSSE_H__")
          [ PDefine "__FF_TRACKERMOSSE_H__";
            PItem (ClassDef TrackerMOSSE_class) ] ] ].

Definition TrackerGOTURN_h : list Directive :=
  [ PInclude "../Tracker.h";
    PIf (IfVersionGE 3 2 0)
      [ PIf (IfNDef "__FF_TRACKERGOTURN_H__")
          [ PDefine "__FF_TRACKERGOTURN_H__";
            PItem (ClassDef TrackerGOTURN_class) ] ] ].

Definition objdetect_cc : list Directive :=
  [ PInclude "opencv_modules.h";
    PIf (IfDef "HAVE_OPENCV_OBJDETECT")
      [ PInclude "objdetect.h";
        PInclude "CascadeClassifier.h";
        PInclude "HOGDescriptor.h";
        PInclude "DetectionROI.h";
        PItem (FunctionDef "Objdetect::Init") ] ].

Definition xfeatures2d_cc : list Directive :=
  [ PInclude "opencv_modules.h";
    PIf (IfDef "HAVE_OPENCV_XFEATURES2D")
      [ PInclude "xfeatures2d.h";
        PInclude "SIFTDetector.h";
        PInclude "SURFDetector.h";
        PItem (FunctionDef "XFeatures2d::Init") ] ].



(** ** Native handles *)

(** The OpenCV classes the wrappers name. *)
Inductive CvType :=
  | cv_face_FaceRecognizer
  | cv_face_EigenFaceRecognizer
  | cv_face_LBPHFaceRecognizer
  | cv_Tracker
  | cv_TrackerMOSSE
  | cv_TrackerGOTURN.

Global Instance CvType_eq_dec : EqDecision CvType.
Proof. solve_decision. Defined.

(** [cv::Ptr<T>]: null, or a reference to a native object.  Objects are named by
    their address; the static type [T] is a phantom. *)
Definition addr := nat.

Record Ptr (T : CvType) := mkPtr { ptr_get : option addr }.
Arguments mkPtr {T} _.
Arguments ptr_get {T} _.

Definition null {T} : Ptr T := mkPtr None.

(** The implicit conversion [cv::Ptr<Derived>] to [cv::Ptr<Base>]: the same
    object under another static type. *)
Definition ptr_cast {T U : CvType} (p : Ptr T) : Ptr U := mkPtr (ptr_get p).

(** ** Member functions as programs

    The body of a member function reads and assigns the fields of [this] and
    calls out through an external interface [E]; an answer of type [R e] comes
    back from the call [e], unless the call raises. *)

Section Prog.
Context {E : Type} {R : E → Type} {S : Type}.

Inductive Prog (A : Type) : Type :=
  | Ret (a : A)
  | Throw (msg : string)              (* an error of the wrapper's own *)
  | Call (e : E) (k : R e → Prog A)
  | Get (k : S → Prog A)              (* read the fields of [this] *)
  | Put (s : S) (k : Prog A).         (* assign the fields of [this] *)
Global Arguments Ret {A} _.
Global Arguments Throw {A} _.
Global Arguments Call {A} _ _.
Global Arguments Get {A} _.
Global Arguments Put {A} _ _.

Fixpoint bind {A B} (p : Prog A) (f : A → Prog B) : Prog B :=
  match p with
  | Ret a => f a
  | Throw msg => Throw msg
  | Call e k => Call e (λ r, bind (k r) f)
  | Get k => Get (λ s, bind (k s) f)
  | Put s k => Put s (bind k f)
  end.

Definition call (e : E) : Prog (R e) := Call e Ret.
Definition get : Prog S := Get Ret.
Definition put (s : S) : Prog unit := Put s (Ret tt).

Global Instance Prog_ret : MRet Prog := λ A, Ret.
Global Instance Prog_bind : MBind Prog := λ A B f p, bind p f.

(** The external side: a state, its exceptions, and what each call does. *)
Record Library := mkLibrary {
  World : Type;
  Exn : Type;
  exec : ∀ e : E, World → World * (Exn + R e)
}.

Inductive Outcome (X A : Type) :=
  | Returned (a : A)
  | NativeError (x : X)      (* an exception of the external side, not caught *)
  | WrapperError (msg : string).
Global Arguments Returned {X A} _.
Global Arguments NativeError {X A} _.
Global Arguments WrapperError {X A} _.

(** What a run leaves behind: the calls made, in order; the external state;
    the fields of [this]; and how the body ended. *)
Record Run (L : Library) (A : Type) := mkRun {
  r_trace : list E;
  r_world : World L;
  r_this : S;
  r_outcome : Outcome (Exn L) A
}.
Global Arguments mkRun {L A} _ _ _ _.
Global Arguments r_trace {L A} _.
Global Arguments r_world {L A} _.
Global Arguments r_this {L A} _.
Global Arguments r_outcome {L A} _.

(** An exception of a call ends the body there: what follows the call, an
    assignment for instance, is not executed, and [this] stays as it is. *)
Fixpoint run (L : Library) {A} (p : Prog A) (σ : World L) (this : S) : Run L A :=
  match p with
  | Ret a => mkRun [] σ this (Returned a)
  | Throw msg => mkRun [] σ this (WrapperError msg)
  | Call e k =>
      match exec L e σ with
      | (σ1, inl x) => mkRun [e] σ1 this (NativeError x)
      | (σ1, inr r) =>
          let rest := run L (k r) σ1 this in
          mkRun (e :: r_trace rest) (r_world rest) (r_this rest) (r_outcome rest)
      end
  | Get k => run L (k this) σ this
  | Put s k => run L k σ s
  end.

(** No error of the wrapper's own on any path, whatever the calls answer. *)
Fixpoint no_wrapper_error {A} (p : Prog A) : Prop :=
  match p with
  | Ret _ => True
  | Throw _ => False
  | Call e k => ∀ r, no_wrapper_error (k r)
  | Get k => ∀ s, no_wrapper_error (k s)
  | Put _ k => no_wrapper_error k
  end.


(** The body assigns no field of [this] on any path. *)
Fixpoint never_assigns_this {A} (p : Prog A) : Prop :=
  match p with
  | Ret _ | Throw _ => True
  | Call e k => ∀ r, never_assigns_this (k r)
  | Get k => ∀ s, never_assigns_this (k s)
  | Put _ _ => False
  end.
End Prog.
Arguments Prog : clear implicits.
Arguments Library : clear implicits.

(** ** The native interface used by the face recognizers *)

Inductive NativeCall :=
  | FaceRecognizer_save (self : Ptr cv_face_FaceRecognizer) (path : string)
      (* self->save(path) *)
  | FaceRecognizer_load (self : Ptr cv_face_FaceRecognizer) (path : string)
      (* self->load(path) *)
  | Algorithm_load (T : CvType) (path : string).
      (* cv::Algorithm::load<T>(path), a static member function *)

Definition NativeResp (c : NativeCall) : Type :=
  match c with
  | FaceRecognizer_save _ _ => unit
  | FaceRecognizer_load _ _ => unit
  | Algorithm_load T _ => Ptr T
  end.

(** The object a call is made on, when it is a member call. *)
Definition receiver (c : NativeCall) : option (Ptr cv_face_FaceRecognizer) :=
  match c with
  | FaceRecognizer_save self _ => Some self
  | FaceRecognizer_load self _ => Some self
  | Algorithm_load _ _ => None
  end.


Abbreviation NativeProg := (Prog NativeCall NativeResp).
Abbreviation NativeLibrary := (Library NativeCall NativeResp).

Definition native {S} (c : NativeCall) : NativeProg S (NativeResp c) := call c.

(** ** cc/face/EigenFaceRecognizer.h *)

Module EigenFaceRecognizer.
Record t := mk { faceRecognizer : Ptr cv_face_FaceRecognizer }.

Definition save (path : string) : NativeProg t unit :=
  this ← get;
  native (FaceRecognizer_save (faceRecognizer this) path).

Definition load (cfg : Config) (path : string) : NativeProg t unit :=
  if CV_VERSION_GREATER_EQUAL cfg 3 3 0 then
    p ← native (Algorithm_load cv_face_EigenFaceRecognizer path);
    put {| faceRecognizer := ptr_cast p |}
  else
    this ← get;
    native (FaceRecognizer_load (faceRecognizer this) path).

Definition getFaceRecognizer : NativeProg t (Ptr cv_face_FaceRecognizer) :=
  this ← get;
  mret (faceRecognizer this).
End EigenFaceRecognizer.

(** ** cc/face/LBPHFaceRecognizer.h *)

Module LBPHFaceRecognizer.
Record t := mk { faceRecognizer : Ptr cv_face_FaceRecognizer }.

Definition save (path : string) : NativeProg t unit :=
  this ← get;
  native (FaceRecognizer_save (faceRecognizer this) path).

Definition load (cfg : Config) (path : string) : NativeProg t unit :=
  if CV_VERSION_GREATER_EQUAL cfg 3 3 0 then
    p ← native (Algorithm_load cv_face_LBPHFaceRecognizer path);
    put {| faceRecognizer := ptr_cast p |}
  else
    this ← get;
    native (FaceRecognizer_load (faceRecognizer this) path).

Definition getFaceRecognizer : NativeProg t (Ptr cv_face_FaceRecognizer) :=
  this ← get;
  mret (faceRecognizer this).
End LBPHFaceRecognizer.

(** ** cc/tracking/Trackers/TrackerMOSSE.h and TrackerGOTURN.h *)

Module TrackerMOSSE.
Record t := mk { tracker : Ptr cv_TrackerMOSSE }.

Definition getTracker : NativeProg t (Ptr cv_Tracker) :=
  this ← get;
  mret (ptr_cast (tracker this)).
End TrackerMOSSE.

Module TrackerGOTURN.
Record t := mk { tracker : Ptr cv_TrackerGOTURN }.

Definition getTracker : NativeProg t (Ptr cv_Tracker) :=
  this ← get;
  mret (ptr_cast (tracker this)).
End TrackerGOTURN.

(** ** The interface of the two face recognizer wrappers

    Both classes derive from FaceRecognizer and define the same three member
    functions; [algo] is the template argument of their [load], [handle] reads
    their one field. *)

Class FaceRecognizer (W : Type) := {
  algo : CvType;
  handle : W → Ptr cv_face_FaceRecognizer;
  save : string → NativeProg W unit;
  load : Config → string → NativeProg W unit;
  getFaceRecognizer : NativeProg W (Ptr cv_face_FaceRecognizer)
}.

Global Instance Eigen : FaceRecognizer EigenFaceRecognizer.t := {|
  algo := cv_face_EigenFaceRecognizer;
  handle := EigenFaceRecognizer.faceRecognizer;
  save := EigenFaceRecognizer.save;
  load := EigenFaceRecognizer.load;
  getFaceRecognizer := EigenFaceRecognizer.getFaceRecognizer
|}.

Global Instance LBPH : FaceRecognizer LBPHFaceRecognizer.t := {|
  algo := cv_face_LBPHFaceRecognizer;
  handle := LBPHFaceRecognizer.faceRecognizer;
  save := LBPHFaceRecognizer.save;
  load := LBPHFaceRecognizer.load;
  getFaceRecognizer := LBPHFaceRecognizer.getFaceRecognizer
|}.

(** A statement about every face recognizer wrapper is one about these two. *)
Definition each_face_recognizer (P : ∀ W, FaceRecognizer W → Prop) : Prop :=
  P EigenFaceRecognizer.t Eigen ∧ P LBPHFaceRecognizer.t LBPH.

(** ** Module registration: objdetect.cc and xfeatures2d.cc *)

(** The [v8::Local<v8::Object> target] of NAN_MODULE_INIT. *)
Definition Target := nat.

(** The member wrappers a module registers; their own Init functions are in
    files outside the sources and are called through this interface. *)
Inductive MemberInit :=
  | CascadeClassifier_Init (target : Target)
  | HOGDescriptor_Init (target : Target)
  | DetectionROI_Init (target : Target)
  | SIFTDetector_Init (target : Target)
  | SURFDetector_Init (target : Target).

Global Instance MemberInit_eq_dec : EqDecision MemberInit.
Proof. solve_decision. Defined.

Definition InitResp (c : MemberInit) : Type := unit.

(** A module Init is a static function: it has no [this]. *)
Abbreviation InitProg := (Prog MemberInit InitResp unit).

Definition init (c : MemberInit) : InitProg unit := call c.

Module Objdetect.
Definition Init (target : Target) : InitProg unit :=
  init (CascadeClassifier_Init target) ;;
  init (HOGDescriptor_Init target) ;;
  init (DetectionROI_Init target).
End Objdetect.

Module XFeatures2d.
Definition Init (target : Target) : InitProg unit :=
  init (SIFTDetector_Init target) ;;
  init (SURFDetector_Init target).
End XFeatures2d.

(** Member Init functions are [void] registration functions: they act on the
    host and hand nothing back, so a model of them is a transformer of the
    host state and has no exception. *)
Definition init_library (Host : Type) (member_init : MemberInit → Host → Host)
  : Library MemberInit InitResp :=
  {| World := Host;
     Exn := Empty_set;
     exec := λ e σ, (member_init e σ, inr tt) |}.

(** ** What the native library is expected to do: persistence of models *)

(** An observation of the native state: the model held by the object a handle
    refers to, the algorithm it belongs to, and when two models are the same
    for the library. *)
Record Observation (L : NativeLibrary) := mkObservation {
  Model : Type;
  model_algo : Model → CvType;
  model_equiv : Model → Model → Prop;
  model_at : World L → Ptr cv_face_FaceRecognizer → option Model
}.
Arguments Model {L} _.
Arguments model_algo {L} _ _.
Arguments model_equiv {L} _ _ _.
Arguments model_at {L} _ _ _.

(** The library's own save/load contract: once [h->save(path)] has returned, a
    load from [path], be it the member [h->load(path)] or the static
    [cv::Algorithm::load<T>(path)] at the algorithm of the saved model, returns
    and gives a model equivalent to the saved one. *)
Record persistence_contract (L : NativeLibrary) (O : Observation L) : Prop := {
  member_load_restores :
    ∀ σ σ1 h path m,
      model_at O σ h = Some m →
      exec L (FaceRecognizer_save h path) σ = (σ1, inr tt) →
      ∃ σ2 m', exec L (FaceRecognizer_load h path) σ1 = (σ2, inr tt)
               ∧ model_at O σ2 h = Some m' ∧ model_equiv O m' m;
  static_load_restores :
    ∀ σ σ1 h path m,
      model_at O σ h = Some m →
      exec L (FaceRecognizer_save h path) σ = (σ1, inr tt) →
      ∀ T, model_algo O m = T →
      ∃ σ2 (p : Ptr T) m',
        exec L (Algorithm_load T path) σ1 = (σ2, inr p)
        ∧ model_at O σ2 (ptr_cast p) = Some m' ∧ model_equiv O m' m
}.

(** ** A native library in memory

    Objects live at addresses, files at paths; a model is its algorithm and
    some trained data.  It serves as a concrete library to run the wrappers
    against. *)

Module MemLib.
Record FaceModel := mkModel { fm_algo : CvType; fm_data : list nat }.

Record State := mkState {
  objects : gmap addr FaceModel;
  files : gmap string FaceModel;
  next : addr
}.

Inductive Error :=
  | NullHandle
  | CannotOpen (path : string)
  | WrongAlgorithm (path : string).

Definition deref (σ : State) (h : Ptr cv_face_FaceRecognizer) : option FaceModel :=
  a ← ptr_get h; objects σ !! a.

Definition native_save (h : Ptr cv_face_FaceRecognizer) (path : string) (σ : State)
  : State * (Error + unit) :=
  match deref σ h with
  | None => (σ, inl NullHandle)
  | Some m => (mkState (objects σ) (<[path := m]> (files σ)) (next σ), inr tt)
  end.

Definition native_load (h : Ptr cv_face_FaceRecognizer) (path : string) (σ : State)
  : State * (Error + unit) :=
  match ptr_get h, deref σ h with
  | Some a, Some _ =>
      match files σ !! path with
      | None => (σ, inl (CannotOpen path))
      | Some m => (mkState (<[a := m]> (objects σ)) (files σ) (next σ), inr tt)
      end
  | _, _ => (σ, inl NullHandle)
  end.

Definition native_static_load (T : CvType) (path : string) (σ : State)
  : State * (Error + Ptr T) :=
  match files σ !! path with
  | None => (σ, inl (CannotOpen path))
  | Some m =>
      if decide (fm_algo m = T) then
        (mkState (<[next σ := m]> (objects σ)) (files σ) (S (next σ)),
         inr (mkPtr (Some (next σ))))
      else (σ, inl (WrongAlgorithm path))
  end.

Definition lib : NativeLibrary :=
  {| World := State;
     Exn := Error;
     exec := λ e,
       match e as e0 return State → State * (Error + NativeResp e0) with
       | FaceRecognizer_save h path => native_save h path
       | FaceRecognizer_load h path => native_load h path
       | Algorithm_load T path => native_static_load T path
       end |}.

Definition obs : Observation lib :=
  @mkObservation lib FaceModel fm_algo eq deref.

(** One trained Eigenfaces model at address 1, no file yet. *)
Definition eigen_model : FaceModel := mkModel cv_face_EigenFaceRecognizer [3; 1; 4].

Definition σ0 : State := mkState {[ 1 := eigen_model ]} ∅ 2.

(** The same, once the model has been persisted at model.yml. *)
Definition σ_saved : State :=
  mkState {[ 1 := eigen_model ]} {[ "model.yml"%string := eigen_model ]} 2.
End MemLib.

(** ** Reading outcomes *)


Definition native_error {X A} (o : Outcome X A) : option X :=
  match o with NativeError x => Some x | _ => None end.

Definition is_wrapper_error {X A} (o : Outcome X A) : bool :=
  match o with WrapperError _ => true | _ => false end.

(** The exception a native call answered with, if it did. *)
Definition raised {X R} (r : X + R) : option X :=
  match r with inl x => Some x | inr _ => None end.

(** The native call [load] forwards to: the branch of its [#if]. *)
Definition forwarded_load_call `{FaceRecognizer W} (cfg : Config) (this : W) (path : string)
  : NativeCall :=
  if CV_VERSION_GREATER_EQUAL cfg 3 3 0
  then Algorithm_load algo path
  else FaceRecognizer_load (handle this) path.

(** The handle [cv::Algorithm::load<T>(path)] gives back in world [σ], seen as
    a [cv::Ptr<cv::face::FaceRecognizer>]. *)
Definition statically_loaded (L : NativeLibrary) (σ : World L) (T : CvType) (path : string)
  : option (Ptr cv_face_FaceRecognizer) :=
  match (exec L (Algorithm_load T path) σ).2 with
  | inr p => Some (ptr_cast p)
  | inl _ => None
  end.

(** [save(path)] followed by [load(path)] on the same wrapper: the second body
    starts in the library state and with the fields the first one left. *)
Definition save_then_load `{FaceRecognizer W} (L : NativeLibrary) (cfg : Config)
    (path : string) (σ : World L) (this : W) : Run L unit :=
  let saved := run L (save path) σ this in
  run L (load cfg path) (r_world saved) (r_this saved).

(** A file contributes the single item [x] exactly when [P] holds, and nothing
    at all otherwise. *)
Definition present_iff (items : list Item) (x : Item) (P : Prop) : Prop :=
  (items = [x] ↔ P) ∧ (items = [] ↔ ¬ P).

(** ** A host driving a wrapper

    The entry points of a face recognizer wrapper, as the host can invoke them
    on one object, in any order and any number of times.  An exception reaches
    the host, which may go on using the object: the next entry point starts in
    the library state and with the fields the previous one left. *)

Inductive Op :=
  | OpSave (path : string)
  | OpLoad (path : string)
  | OpGetFaceRecognizer.

Definition op_body `{FaceRecognizer W} (cfg : Config) (o : Op) : NativeProg W unit :=
  match o with
  | OpSave path => save path
  | OpLoad path => load cfg path
  | OpGetFaceRecognizer => getFaceRecognizer ;; mret ()
  end.

Fixpoint run_ops `{FaceRecognizer W} (L : NativeLibrary) (cfg : Config) (ops : list Op)
    (σ : World L) (this : W) : list NativeCall * World L * W :=
  match ops with
  | [] => ([], σ, this)
  | o :: ops =>
      let r := run L (op_body cfg o) σ this in
      let '(tr, σ', this') := run_ops L cfg ops (r_world r) (r_this r) in
      (r_trace r ++ tr, σ', this')
  end.

(** The entry points that forward to the library. *)
Definition forwards (o : Op) : bool :=
  match o with
  | OpSave _ | OpLoad _ => true
  | OpGetFaceRecognizer => false
  end.

Definition is_load (o : Op) : bool :=
  match o with OpLoad _ => true | _ => false end.


Definition returned_value {X A} (o : Outcome X A) : option A :=
  match o with Returned a => Some a | _ => None end.

(** The target a member Init is called with. *)
Definition init_target (c : MemberInit) : Target :=
  match c with
  | CascadeClassifier_Init t | HOGDescriptor_Init t | DetectionROI_Init t
  | SIFTDetector_Init t | SURFDetector_Init t => t
  end.

(** The four headers of the sources. *)
Definition wrapper_headers : list (list Directive) :=
  [ EigenFaceRecognizer_h; LBPHFaceRecognizer_h; TrackerMOSSE_h; TrackerGOTURN_h ].

(** Their include guards. *)
Definition header_guards : list string :=
  [ "__FF_EIGENFACERECOGNIZER_H__"; "__FF_LBPHFACERECOGNIZER_H__";
    "__FF_TRACKERMOSSE_H__"; "__FF_TRACKERGOTURN_H__" ]%string.

(** The native calls a wrapper compiled at [cfg] for the algorithm [T] has in
    its bodies: [save] at every version, the member [load] below 3.3.0 only,
    the static load from 3.3.0 on only and for [T] only. *)
Definition call_in_build (cfg : Config) (T : CvType) (c : NativeCall) : Prop :=
  match c with
  | FaceRecognizer_save _ _ => True
  | FaceRecognizer_load _ _ => CV_VERSION_GREATER_EQUAL cfg 3 3 0 = false
  | Algorithm_load T' _ => CV_VERSION_GREATER_EQUAL cfg 3 3 0 = true ∧ T' = T
  end.

(** * Theorems *)

Lemma CV_VERSION_GREATER_EQUAL_spec cfg major minor revision :
  CV_VERSION_GREATER_EQUAL cfg major minor revision = true
  ↔ version_at_least cfg major minor revision.
Proof.
  unfold CV_VERSION_GREATER_EQUAL, version_at_least.
  rewrite orb_true_iff, andb_true_iff, orb_true_iff, andb_true_iff.
  rewrite !Nat.ltb_lt, !Nat.eqb_eq, Nat.leb_le. tauto.
Qed.

(** ** The model at work *)

Example version_4_0_0_ge_3_3_0 : CV_VERSION_GREATER_EQUAL (mkConfig 4 0 0) 3 3 0 = true.
Proof. reflexivity. Qed.

Example version_3_2_9_lt_3_3_0 : CV_VERSION_GREATER_EQUAL (mkConfig 3 2 9) 3 3 0 = false.
Proof. reflexivity. Qed.

Example TrackerMOSSE_absent_at_3_3_1 :
  items_of (mkConfig 3 3 1) TrackerMOSSE_h ∅ = []
  ∧ items_of (mkConfig 3 3 1) TrackerGOTURN_h ∅ = [ClassDef TrackerGOTURN_class].
Proof. split; reflexivity. Qed.

(** [save] through a null handle: the call is made all the same, and the
    failure is the library's. *)
Example save_through_null_handle :
  run MemLib.lib (save "model.yml") MemLib.σ0 (EigenFaceRecognizer.mk null)
  = mkRun (L := MemLib.lib) [FaceRecognizer_save null "model.yml"] MemLib.σ0
      (EigenFaceRecognizer.mk null) (NativeError MemLib.NullHandle).
Proof. reflexivity. Qed.

(** Below 3.3.0 [load] restores the model into the object already held. *)
Example load_in_place_at_3_2_0 :
  run MemLib.lib (load (mkConfig 3 2 0) "model.yml") MemLib.σ_saved
    (EigenFaceRecognizer.mk (mkPtr (Some 1)))
  = mkRun (L := MemLib.lib) [FaceRecognizer_load (mkPtr (Some 1)) "model.yml"] MemLib.σ_saved
      (EigenFaceRecognizer.mk (mkPtr (Some 1))) (Returned ()).
Proof. vm_compute. reflexivity. Qed.

(** From 3.3.0 on, a [load] whose native call raises leaves the handle alone. *)
Example load_of_missing_file_at_3_3_0 :
  run MemLib.lib (load (mkConfig 3 3 0) "missing.yml") MemLib.σ_saved
    (EigenFaceRecognizer.mk (mkPtr (Some 1)))
  = mkRun (L := MemLib.lib) [Algorithm_load cv_face_EigenFaceRecognizer "missing.yml"] MemLib.σ_saved
      (EigenFaceRecognizer.mk (mkPtr (Some 1)))
      (NativeError (MemLib.CannotOpen "missing.yml")).
Proof. reflexivity. Qed.

(** ** Two facts about every program *)

Section ProgFacts.
Context {E : Type} {R : E → Type} {S : Type} (L : Library E R).

(** A body without assignment leaves [this] as it found it, however it ends. *)
Lemma run_never_assigns {A} (p : Prog E R S A) σ this :
  never_assigns_this p → r_this (run L p σ this) = this.
Proof.
  revert σ. induction p as [a | msg | e k IH | k IH | s k IH]; intros σ Hp; simpl in *.
  - reflexivity.
  - reflexivity.
  - destruct (exec L e σ) as [σ1 [x | r]]; simpl; [reflexivity | by apply IH].
  - by apply IH.
  - destruct Hp.
Qed.

End ProgFacts.

(** ** Running the wrappers *)

Ltac unfold_wrapper :=
  unfold save, load, handle, algo, getFaceRecognizer, forwarded_load_call in *; simpl in *;
  unfold EigenFaceRecognizer.save, EigenFaceRecognizer.load,
         LBPHFaceRecognizer.save, LBPHFaceRecognizer.load,
         EigenFaceRecognizer.getFaceRecognizer, LBPHFaceRecognizer.getFaceRecognizer in *.

Ltac each_wrapper := split; intros; unfold_wrapper.

Ltac assigns_nothing := apply run_never_assigns; by cbv.

(** Case on what the library answers to the call under scrutiny. *)
Ltac native_answer :=
  unfold statically_loaded; simpl;
  match goal with
  | |- context [exec ?L ?c ?σ] => destruct (exec L c σ) as [? [? | ?]] eqn:?
  end; simpl.

Ltac by_branch cfg := destruct (CV_VERSION_GREATER_EQUAL cfg 3 3 0) eqn:?.

(** ** C1: forwarding *)



(** ** C4: the handle field *)

(** C4, as the spec states it, at one wrapper: after construction no entry
    point would replace the handle field.  On OpenCV 3.3.0, [load] of a
    persisted model leaves in the field the freshly loaded object (address 2),
    no longer the object held before (address 1). *)
Lemma load_replaces_handle_3_3_0 :
  handle (r_this (run MemLib.lib (load (mkConfig 3 3 0) "model.yml") MemLib.σ_saved
                    (EigenFaceRecognizer.mk (mkPtr (Some 1)))))
    = mkPtr (Some 2)
  ∧ handle (r_this (run MemLib.lib (load (mkConfig 3 3 0) "model.yml") MemLib.σ_saved
                      (EigenFaceRecognizer.mk (mkPtr (Some 1)))))
    ≠ handle (EigenFaceRecognizer.mk (mkPtr (Some 1))).
Proof. split; [reflexivity | discriminate]. Qed.

(** C4 (amended): [save] and [getFaceRecognizer] assign nothing and leave the
    wrapper as it was, and so does [load] below OpenCV 3.3.0, however the
    native call ends.  From 3.3.0 on, [load] leaves in the handle field the
    handle that [cv::Algorithm::load<T>(path)] returned; when that call raises,
    the assignment is not reached and the field keeps the handle it had. *)
Theorem handle_field_after_entry_points :
  each_face_recognizer (λ W _, ∀ cfg (L : NativeLibrary) σ (this : W) path,
    r_this (run L (save path) σ this) = this
    ∧ r_this (run L getFaceRecognizer σ this) = this
    ∧ (if CV_VERSION_GREATER_EQUAL cfg 3 3 0
       then handle (r_this (run L (load cfg path) σ this))
            = default (handle this) (statically_loaded L σ algo path)
       else r_this (run L (load cfg path) σ this) = this)).
Proof.
  split; intros cfg L σ this path;
    (split; [assigns_nothing |]); (split; [assigns_nothing |]);
    unfold_wrapper; by_branch cfg; try assigns_nothing;
    native_answer; reflexivity.
Qed.

(** ** C5: no guard on the handle *)

(** C5: the bodies of [save] and [load] have no error of their own on any
    path.  Whatever the stored handle, null included, [save] makes the native
    [save] call on that handle, and whether it fails is decided by the library
    alone: the outcome is the library's exception when it raises one and a
    normal return otherwise. *)
Theorem save_has_no_guard :
  each_face_recognizer (λ W _, ∀ cfg path,
    no_wrapper_error (save path)
    ∧ no_wrapper_error (load cfg path)
    ∧ ∀ (L : NativeLibrary) σ (this : W),
        r_trace (run L (save path) σ this) = [FaceRecognizer_save (handle this) path]
        ∧ r_outcome (run L (save path) σ this)
          = match (exec L (FaceRecognizer_save (handle this) path) σ).2 with
            | inl x => NativeError x
            | inr _ => Returned ()
            end).
Proof.
  each_wrapper; (split; [by cbv |]); (split; [by_branch cfg; by cbv |]);
    intros; split; native_answer; try reflexivity;
    match goal with |- Returned ?u = _ => by destruct u end.
Qed.

(** ** C6: errors *)

(** C6: for [save] and for [load], on every version, against every library and
    in every state, the error delivered to the caller is exactly the exception
    the forwarded native call raised, if it raised one, and there is no error
    otherwise; in particular the outcome is never an error of the wrapper. *)
Theorem errors_are_the_native_errors :
  each_face_recognizer (λ W _, ∀ cfg (L : NativeLibrary) σ (this : W) path,
    native_error (r_outcome (run L (save path) σ this))
      = raised (exec L (FaceRecognizer_save (handle this) path) σ).2
    ∧ is_wrapper_error (r_outcome (run L (save path) σ this)) = false
    ∧ native_error (r_outcome (run L (load cfg path) σ this))
      = raised (exec L (forwarded_load_call cfg this path) σ).2
    ∧ is_wrapper_error (r_outcome (run L (load cfg path) σ this)) = false).
Proof.
  each_wrapper; repeat split; try by_branch cfg; native_answer; reflexivity.
Qed.

(** ** C8: from 3.3.0 on, [load] does not depend on the stored handle *)



(** ** C9: the accessors *)

(** C9: run in any state, [getFaceRecognizer] returns the handle stored in the
    wrapper, [getTracker] the stored tracker handle (the same object, seen as
    a [cv::Ptr<cv::Tracker>]); both make no native call and leave the wrapper
    and the library as they were. *)
Theorem accessors_are_observers :
  each_face_recognizer (λ W _, ∀ (L : NativeLibrary) σ (this : W),
    run L getFaceRecognizer σ this = mkRun [] σ this (Returned (handle this)))
  ∧ (∀ (L : NativeLibrary) σ (this : TrackerMOSSE.t),
       run L TrackerMOSSE.getTracker σ this
         = mkRun [] σ this (Returned (ptr_cast (TrackerMOSSE.tracker this)))
       ∧ ptr_get (ptr_cast (U := cv_Tracker) (TrackerMOSSE.tracker this))
         = ptr_get (TrackerMOSSE.tracker this))
  ∧ (∀ (L : NativeLibrary) σ (this : TrackerGOTURN.t),
       run L TrackerGOTURN.getTracker σ this
         = mkRun [] σ this (Returned (ptr_cast (TrackerGOTURN.tracker this)))
       ∧ ptr_get (ptr_cast (U := cv_Tracker) (TrackerGOTURN.tracker this))
         = ptr_get (TrackerGOTURN.tracker this)).
Proof. repeat split. Qed.

(** ** C2: what the wrapper classes expose *)



(** ** C10: what the preprocessor lets through *)

Lemma TrackerMOSSE_h_items cfg macros :
  items_of cfg TrackerMOSSE_h macros
  = if CV_VERSION_GREATER_EQUAL cfg 3 4 0
       && negb (bool_decide ("__FF_TRACKERMOSSE_H__"%string ∈ macros))
    then [ClassDef TrackerMOSSE_class] else [].
Proof.
  unfold items_of, TrackerMOSSE_h.
  cbn [preprocess preprocess1 eval_cond].
  destruct (CV_VERSION_GREATER_EQUAL cfg 3 4 0); [| reflexivity].
  destruct (bool_decide _); reflexivity.
Qed.

Lemma TrackerGOTURN_h_items cfg macros :
  items_of cfg TrackerGOTURN_h macros
  = if CV_VERSION_GREATER_EQUAL cfg 3 2 0
       && negb (bool_decide ("__FF_TRACKERGOTURN_H__"%string ∈ macros))
    then [ClassDef TrackerGOTURN_class] else [].
Proof.
  unfold items_of, TrackerGOTURN_h.
  cbn [preprocess preprocess1 eval_cond].
  destruct (CV_VERSION_GREATER_EQUAL cfg 3 2 0); [| reflexivity].
  destruct (bool_decide _); reflexivity.
Qed.

Lemma objdetect_cc_items cfg macros :
  items_of cfg objdetect_cc macros
  = if bool_decide ("HAVE_OPENCV_OBJDETECT"%string ∈ macros)
    then [FunctionDef "Objdetect::Init"] else [].
Proof.
  unfold items_of, objdetect_cc.
  cbn [preprocess preprocess1 eval_cond].
  destruct (bool_decide _); reflexivity.
Qed.

Lemma xfeatures2d_cc_items cfg macros :
  items_of cfg xfeatures2d_cc macros
  = if bool_decide ("HAVE_OPENCV_XFEATURES2D"%string ∈ macros)
    then [FunctionDef "XFeatures2d::Init"] else [].
Proof.
  unfold items_of, xfeatures2d_cc.
  cbn [preprocess preprocess1 eval_cond].
  destruct (bool_decide _); reflexivity.
Qed.

Lemma present_iff_bool (b : bool) (x : Item) (P : Prop) :
  (b = true ↔ P) → present_iff (if b then [x] else []) x P.
Proof.
  unfold present_iff. destruct b; intros [H1 H2]; intuition (discriminate || auto).
Qed.

(** C10: for every OpenCV version and every set of macros defined on entry,
    TrackerMOSSE.h contributes the class TrackerMOSSE exactly when the version
    is at least 3.4.0 (and the header was not included before), TrackerGOTURN.h
    the class TrackerGOTURN exactly when the version is at least 3.2.0;
    objdetect.cc defines Objdetect::Init exactly when HAVE_OPENCV_OBJDETECT is
    defined and xfeatures2d.cc defines XFeatures2d::Init exactly when
    HAVE_OPENCV_XFEATURES2D is; otherwise each file contributes nothing. *)
Theorem surface_is_gated cfg (macros : gset string) :
  present_iff (items_of cfg TrackerMOSSE_h macros) (ClassDef TrackerMOSSE_class)
    (version_at_least cfg 3 4 0 ∧ "__FF_TRACKERMOSSE_H__"%string ∉ macros)
  ∧ present_iff (items_of cfg TrackerGOTURN_h macros) (ClassDef TrackerGOTURN_class)
      (version_at_least cfg 3 2 0 ∧ "__FF_TRACKERGOTURN_H__"%string ∉ macros)
  ∧ present_iff (items_of cfg objdetect_cc macros) (FunctionDef "Objdetect::Init")
      ("HAVE_OPENCV_OBJDETECT"%string ∈ macros)
  ∧ present_iff (items_of cfg xfeatures2d_cc macros) (FunctionDef "XFeatures2d::Init")
      ("HAVE_OPENCV_XFEATURES2D"%string ∈ macros).
Proof.
  rewrite TrackerMOSSE_h_items, TrackerGOTURN_h_items, objdetect_cc_items,
    xfeatures2d_cc_items.
  split; [| split; [| split]]; apply present_iff_bool;
    rewrite ?andb_true_iff, ?negb_true_iff, ?bool_decide_eq_false,
      ?bool_decide_eq_true, ?CV_VERSION_GREATER_EQUAL_spec; done.
Qed.

(** ** C7: module registration *)

(** C7: whatever the member Init functions do to the host, Objdetect::Init
    calls CascadeClassifier::Init, HOGDescriptor::Init and DetectionROI::Init,
    once each, in this order, on its own target, and nothing else;
    XFeatures2d::Init calls SIFTDetector::Init and then SURFDetector::Init.
    The host ends in the state these calls, in this order, leave it in. *)
Theorem module_init_registers_members :
  ∀ Host (member_init : MemberInit → Host → Host) (σ : Host) (target : Target),
    run (init_library Host member_init) (Objdetect.Init target) σ ()
      = mkRun (L := init_library Host member_init)
          [CascadeClassifier_Init target; HOGDescriptor_Init target;
           DetectionROI_Init target]
          (member_init (DetectionROI_Init target)
             (member_init (HOGDescriptor_Init target)
                (member_init (CascadeClassifier_Init target) σ)))
          () (Returned ())
    ∧ run (init_library Host member_init) (XFeatures2d.Init target) σ ()
      = mkRun (L := init_library Host member_init)
          [SIFTDetector_Init target; SURFDetector_Init target]
          (member_init (SURFDetector_Init target)
             (member_init (SIFTDetector_Init target) σ))
          () (Returned ()).
Proof. intros. split; reflexivity. Qed.

(** ** C3: save, then load *)

(** The library in memory honours the persistence contract. *)
Lemma MemLib_persistence : persistence_contract MemLib.lib MemLib.obs.
Proof.
  split; simpl; unfold MemLib.native_save.
  - intros σ σ1 h path m Hm Hsave. rewrite Hm in Hsave.
    injection Hsave as <-. unfold MemLib.native_load, MemLib.deref in *. simpl.
    destruct (ptr_get h) as [a |]; [| discriminate Hm]. simpl in *.
    eexists _, m. rewrite Hm, lookup_insert_eq.
    split; [reflexivity |]. simpl. by rewrite lookup_insert_eq.
  - intros σ σ1 h path m Hm Hsave T HT. rewrite Hm in Hsave.
    injection Hsave as <-. unfold MemLib.native_static_load. simpl.
    eexists _, _, m. rewrite lookup_insert_eq, decide_True by done.
    split; [reflexivity |].
    unfold MemLib.deref. simpl. by rewrite lookup_insert_eq.
Qed.

(** C3: let the native library honour its persistence contract.  For each face
    recognizer wrapper holding a model of its own algorithm, on every OpenCV
    version and for every path: once [save(path)] has returned, [load(path)]
    returns too, and the wrapper then holds a model equivalent to the one that
    was saved. *)
Theorem save_then_load_round_trip
    (L : NativeLibrary) (O : Observation L) (Hnative : persistence_contract L O)
    (cfg : Config) :
  each_face_recognizer (λ W _, ∀ σ (this : W) path m,
    model_at O σ (handle this) = Some m →
    model_algo O m = algo →
    r_outcome (run L (save path) σ this) = Returned () →
    r_outcome (save_then_load L cfg path σ this) = Returned ()
    ∧ ∃ m',
        model_at O (r_world (save_then_load L cfg path σ this))
          (handle (r_this (save_then_load L cfg path σ this))) = Some m'
        ∧ model_equiv O m' m).
Proof.
  destruct Hnative as [Hmember Hstatic].
  split; intros σ this path m Hm Halgo Hsaved; unfold save_then_load;
    unfold_wrapper;
    match type of Hsaved with
    | context [exec ?L0 ?c ?s] => destruct (exec L0 c s) as [σ1 [x | []]] eqn:Hsave
    end; try discriminate Hsaved; simpl; by_branch cfg; simpl.
  1, 3: destruct (Hstatic _ _ _ _ _ Hm Hsave _ Halgo) as (σ2 & p & m' & -> & Hm' & Heq);
    by eauto.
  all: destruct (Hmember _ _ _ _ _ Hm Hsave) as (σ2 & m' & -> & Hm' & Heq);
    by eauto.
Qed.

(** At OpenCV 3.4.1, against the library in memory: the Eigenfaces wrapper
    holding object 1 saves to model.yml and loads it back. *)
Lemma save_then_load_round_trip_witness :
  persistence_contract MemLib.lib MemLib.obs
  ∧ model_at MemLib.obs MemLib.σ0 (handle (EigenFaceRecognizer.mk (mkPtr (Some 1))))
    = Some MemLib.eigen_model
  ∧ model_algo MemLib.obs MemLib.eigen_model = cv_face_EigenFaceRecognizer
  ∧ r_outcome (run MemLib.lib (save "model.yml") MemLib.σ0
                 (EigenFaceRecognizer.mk (mkPtr (Some 1)))) = Returned ()
  ∧ r_outcome (save_then_load MemLib.lib (mkConfig 3 4 1) "model.yml" MemLib.σ0
                 (EigenFaceRecognizer.mk (mkPtr (Some 1)))) = Returned ()
  ∧ ∃ m',
      model_at MemLib.obs
        (r_world (save_then_load MemLib.lib (mkConfig 3 4 1) "model.yml" MemLib.σ0
                    (EigenFaceRecognizer.mk (mkPtr (Some 1)))))
        (handle
           (r_this (save_then_load MemLib.lib (mkConfig 3 4 1) "model.yml" MemLib.σ0
                      (EigenFaceRecognizer.mk (mkPtr (Some 1))))))
      = Some m'
      ∧ m' = MemLib.eigen_model.
Proof.
  split; [exact MemLib_persistence |].
  split; [reflexivity |]. split; [reflexivity |]. split; [reflexivity |].
  exact (proj1 (save_then_load_round_trip MemLib.lib MemLib.obs MemLib_persistence
                  (mkConfig 3 4 1))
           MemLib.σ0 (EigenFaceRecognizer.mk (mkPtr (Some 1))) "model.yml"%string
           MemLib.eigen_model eq_refl eq_refl eq_refl).
Defined.

(** * Further properties of the sources *)

(** ** Including the headers *)

Lemma preprocess_app cfg (a b : list Directive) macros :
  preprocess cfg (a ++ b) macros
  = ((preprocess cfg b (preprocess cfg a macros).1).1,
     (preprocess cfg a macros).2 ++ (preprocess cfg b (preprocess cfg a macros).1).2).
Proof.
  revert macros. induction a as [| d a IH]; intros macros; simpl.
  - by destruct (preprocess cfg b macros).
  - destruct (preprocess1 cfg d macros) as [macros1 items1]. rewrite IH.
    destruct (preprocess cfg a macros1) as [macros2 items2]. simpl.
    by rewrite app_assoc.
Qed.

Lemma EigenFaceRecognizer_h_pass cfg macros :
  preprocess cfg EigenFaceRecognizer_h macros
  = if bool_decide ("__FF_EIGENFACERECOGNIZER_H__"%string ∈ macros)
    then (macros, [])
    else ({[ "__FF_EIGENFACERECOGNIZER_H__"%string ]} ∪ macros,
          [ClassDef EigenFaceRecognizer_class]).
Proof.
  unfold EigenFaceRecognizer_h. cbn [preprocess preprocess1 eval_cond].
  by destruct (bool_decide _).
Qed.

Lemma LBPHFaceRecognizer_h_pass cfg macros :
  preprocess cfg LBPHFaceRecognizer_h macros
  = if bool_decide ("__FF_LBPHFACERECOGNIZER_H__"%string ∈ macros)
    then (macros, [])
    else ({[ "__FF_LBPHFACERECOGNIZER_H__"%string ]} ∪ macros,
          [ClassDef LBPHFaceRecognizer_class]).
Proof.
  unfold LBPHFaceRecognizer_h. cbn [preprocess preprocess1 eval_cond].
  by destruct (bool_decide _).
Qed.

Lemma TrackerMOSSE_h_pass cfg macros :
  preprocess cfg TrackerMOSSE_h macros
  = if CV_VERSION_GREATER_EQUAL cfg 3 4 0
       && negb (bool_decide ("__FF_TRACKERMOSSE_H__"%string ∈ macros))
    then ({[ "__FF_TRACKERMOSSE_H__"%string ]} ∪ macros, [ClassDef TrackerMOSSE_class])
    else (macros, []).
Proof.
  unfold TrackerMOSSE_h. cbn [preprocess preprocess1 eval_cond].
  destruct (CV_VERSION_GREATER_EQUAL cfg 3 4 0); [| reflexivity].
  by destruct (bool_decide _).
Qed.

Lemma TrackerGOTURN_h_pass cfg macros :
  preprocess cfg TrackerGOTURN_h macros
  = if CV_VERSION_GREATER_EQUAL cfg 3 2 0
       && negb (bool_decide ("__FF_TRACKERGOTURN_H__"%string ∈ macros))
    then ({[ "__FF_TRACKERGOTURN_H__"%string ]} ∪ macros, [ClassDef TrackerGOTURN_class])
    else (macros, []).
Proof.
  unfold TrackerGOTURN_h. cbn [preprocess preprocess1 eval_cond].
  destruct (CV_VERSION_GREATER_EQUAL cfg 3 2 0); [| reflexivity].
  by destruct (bool_decide _).
Qed.

Ltac each_header :=
  unfold wrapper_headers;
  repeat match goal with
         | |- Forall _ (_ :: _) => apply List.Forall_cons
         | |- Forall _ [] => apply List.Forall_nil
         end.

Ltac header_passes :=
  rewrite ?preprocess_app;
  rewrite ?EigenFaceRecognizer_h_pass, ?LBPHFaceRecognizer_h_pass,
    ?TrackerMOSSE_h_pass, ?TrackerGOTURN_h_pass.

(** Case on the gates of the headers, one after the other, rewriting the next
    pass after each. *)
Ltac header_cases :=
  repeat (header_passes; simpl;
          first [ progress case_bool_decide
                | match goal with
                  | |- context [CV_VERSION_GREATER_EQUAL ?cfg ?a ?b ?c] =>
                      destruct (CV_VERSION_GREATER_EQUAL cfg a b c) eqn:?
                  end ];
          simpl).

(** X1: each header is protected by its include guard: including it a second
    time in a translation unit, whatever was defined before and whatever the
    OpenCV version, contributes nothing more and defines nothing more. *)
Theorem include_guards_make_headers_idempotent :
  Forall (λ h, ∀ cfg macros, preprocess cfg (h ++ h) macros = preprocess cfg h macros)
    wrapper_headers.
Proof.
  each_header; intros cfg macros; header_cases;
    try reflexivity; set_solver.
Qed.

Lemma guard_defined (g : string) (macros : gset string) :
  bool_decide (g ∈ {[ g ]} ∪ macros) = true.
Proof. apply bool_decide_eq_true, elem_of_union_l, elem_of_singleton_2. reflexivity. Qed.

Lemma guard_of_another_header (g g' : string) (macros : gset string) :
  g ≠ g' → bool_decide (g' ∈ {[ g ]} ∪ macros) = bool_decide (g' ∈ macros).
Proof.
  intros Hne. apply bool_decide_ext.
  rewrite elem_of_union, elem_of_singleton. split; [| by right].
  intros [Heq | Hin]; [by destruct Hne | exact Hin].
Qed.

Lemma guards_in_either_order (g g' : string) (macros : gset string) :
  {[ g ]} ∪ ({[ g' ]} ∪ macros) = {[ g' ]} ∪ ({[ g ]} ∪ macros).
Proof. rewrite !(assoc_L (∪)). f_equal. apply (comm_L (∪)). Qed.

(** Two headers in a row: settle the first pass by cases on its gates, then
    the second pass, in which the guard of the first header is now defined. *)
Ltac two_headers cfg macros :=
  rewrite ?preprocess_app;
  rewrite ?(EigenFaceRecognizer_h_pass cfg macros), ?(LBPHFaceRecognizer_h_pass cfg macros),
    ?(TrackerMOSSE_h_pass cfg macros), ?(TrackerGOTURN_h_pass cfg macros);
  repeat match goal with
         | |- context [bool_decide (?g ∈ macros)] =>
             destruct (bool_decide (g ∈ macros)) eqn:?
         end;
  repeat match goal with
         | |- context [CV_VERSION_GREATER_EQUAL cfg ?a ?b ?c] =>
             destruct (CV_VERSION_GREATER_EQUAL cfg a b c) eqn:?
         end;
  cbn [fst snd andb negb app];
  rewrite ?EigenFaceRecognizer_h_pass, ?LBPHFaceRecognizer_h_pass,
    ?TrackerMOSSE_h_pass, ?TrackerGOTURN_h_pass;
  rewrite ?guard_defined; rewrite ?guard_of_another_header by done;
  repeat match goal with
         | H : bool_decide _ = _ |- _ => rewrite H
         | H : CV_VERSION_GREATER_EQUAL _ _ _ _ = _ |- _ => rewrite H
         end;
  cbn [fst snd andb negb app].

(** X2: the include guards are pairwise distinct, so the headers do not
    interfere: any two of them, included in either order, define the same
    macros and contribute the same classes. *)
Theorem headers_commute :
  Forall (λ h1, Forall (λ h2, ∀ cfg macros,
    (preprocess cfg (h1 ++ h2) macros).1 = (preprocess cfg (h2 ++ h1) macros).1
    ∧ (preprocess cfg (h1 ++ h2) macros).2 ≡ₚ (preprocess cfg (h2 ++ h1) macros).2)
    wrapper_headers) wrapper_headers.
Proof.
  each_header; intros cfg macros; two_headers cfg macros;
    split; first [apply guards_in_either_order | apply perm_swap | reflexivity].
Qed.

(** X3: the two face recognizer headers have no gate but their include guard:
    at every OpenCV version each contributes its class exactly when it has not
    been included before, and nothing otherwise. *)
Theorem face_recognizers_are_not_gated cfg (macros : gset string) :
  present_iff (items_of cfg EigenFaceRecognizer_h macros)
    (ClassDef EigenFaceRecognizer_class)
    ("__FF_EIGENFACERECOGNIZER_H__"%string ∉ macros)
  ∧ present_iff (items_of cfg LBPHFaceRecognizer_h macros)
      (ClassDef LBPHFaceRecognizer_class)
      ("__FF_LBPHFACERECOGNIZER_H__"%string ∉ macros).
Proof.
  unfold items_of. rewrite EigenFaceRecognizer_h_pass, LBPHFaceRecognizer_h_pass.
  split; case_bool_decide; unfold present_iff; cbn [snd]; naive_solver.
Qed.

Lemma CV_VERSION_GREATER_EQUAL_upgrade cfg cfg' major minor revision :
  version_at_least cfg'
    (CV_VERSION_MAJOR cfg) (CV_VERSION_MINOR cfg) (CV_VERSION_REVISION cfg) →
  CV_VERSION_GREATER_EQUAL cfg major minor revision = true →
  CV_VERSION_GREATER_EQUAL cfg' major minor revision = true.
Proof.
  rewrite !CV_VERSION_GREATER_EQUAL_spec. unfold version_at_least. lia.
Qed.

(** X4: the threshold of TrackerMOSSE (3.4.0) is above that of TrackerGOTURN
    (3.2.0): a build that has the TrackerMOSSE wrapper has the TrackerGOTURN
    wrapper too, once its header is included. *)
Theorem TrackerMOSSE_brings_TrackerGOTURN cfg (macros macros' : gset string) :
  items_of cfg TrackerMOSSE_h macros = [ClassDef TrackerMOSSE_class] →
  "__FF_TRACKERGOTURN_H__"%string ∉ macros' →
  items_of cfg TrackerGOTURN_h macros' = [ClassDef TrackerGOTURN_class].
Proof.
  unfold items_of. rewrite TrackerMOSSE_h_pass, TrackerGOTURN_h_pass.
  intros Hmosse Hguard.
  destruct (CV_VERSION_GREATER_EQUAL cfg 3 4 0) eqn:Hv; [| discriminate Hmosse].
  apply CV_VERSION_GREATER_EQUAL_spec in Hv.
  assert (CV_VERSION_GREATER_EQUAL cfg 3 2 0 = true) as ->.
  { apply CV_VERSION_GREATER_EQUAL_spec. unfold version_at_least in *. lia. }
  by rewrite bool_decide_eq_false_2.
Qed.

Lemma TrackerMOSSE_brings_TrackerGOTURN_witness :
  items_of (mkConfig 3 4 0) TrackerMOSSE_h ∅ = [ClassDef TrackerMOSSE_class]
  ∧ ("__FF_TRACKERGOTURN_H__"%string ∉@{gset string} ∅)
  ∧ items_of (mkConfig 3 4 0) TrackerGOTURN_h ∅ = [ClassDef TrackerGOTURN_class].
Proof.
  split; [reflexivity |]. split; [apply not_elem_of_empty |].
  apply (TrackerMOSSE_brings_TrackerGOTURN (mkConfig 3 4 0) ∅ ∅);
    [reflexivity | apply not_elem_of_empty].
Defined.

(** X5: moving to a later OpenCV version removes no wrapper: whatever a header
    contributes at one version it contributes at every later one, the macros
    defined on entry being the same. *)
Theorem upgrading_keeps_wrappers cfg cfg' :
  version_at_least cfg'
    (CV_VERSION_MAJOR cfg) (CV_VERSION_MINOR cfg) (CV_VERSION_REVISION cfg) →
  Forall (λ h, ∀ macros, items_of cfg h macros ⊆ items_of cfg' h macros)
    wrapper_headers.
Proof.
  intros Hlater. each_header; intros macros; unfold items_of;
    rewrite ?EigenFaceRecognizer_h_pass, ?LBPHFaceRecognizer_h_pass,
      ?TrackerMOSSE_h_pass, ?TrackerGOTURN_h_pass; try reflexivity.
  all: match goal with
       | |- context [CV_VERSION_GREATER_EQUAL ?cf ?a ?b ?c] =>
           constr_eq cf cfg; destruct (CV_VERSION_GREATER_EQUAL cf a b c) eqn:Hv
       end; cbn [andb]; [| by intros x Hx; apply elem_of_nil in Hx].
  all: by rewrite (CV_VERSION_GREATER_EQUAL_upgrade _ _ _ _ _ Hlater Hv).
Qed.

Lemma upgrading_keeps_wrappers_witness :
  version_at_least (mkConfig 4 1 0) 3 4 2
  ∧ Forall (λ h, ∀ macros,
      items_of (mkConfig 3 4 2) h macros ⊆ items_of (mkConfig 4 1 0) h macros)
      wrapper_headers.
Proof.
  assert (Hlater : version_at_least (mkConfig 4 1 0) 3 4 2) by (left; simpl; lia).
  split; [exact Hlater |].
  exact (upgrading_keeps_wrappers (mkConfig 3 4 2) (mkConfig 4 1 0) Hlater).
Defined.

(** ** A wrapper in the hands of the host *)

Section Sessions.
Context `{F : FaceRecognizer W} (L : NativeLibrary) (cfg : Config).



(** From one entry point to a session: what every entry point keeps, the
    session keeps. *)
Lemma session_keeps_handle (ops : list Op) :
  (∀ o σ (this : W),
     CV_VERSION_GREATER_EQUAL cfg 3 3 0 = false ∨ is_load o = false →
     r_this (run L (op_body cfg o) σ this) = this
     ∧ Forall (λ c, receiver c = Some (handle this))
         (r_trace (run L (op_body cfg o) σ this))) →
  CV_VERSION_GREATER_EQUAL cfg 3 3 0 = false
  ∨ forallb (λ o, negb (is_load o)) ops = true →
  ∀ σ (this : W),
    (run_ops L cfg ops σ this).2 = this
    ∧ Forall (λ c, receiver c = Some (handle this)) (run_ops L cfg ops σ this).1.1.
Proof.
  intros Hop. induction ops as [| o ops IH]; intros Hquiet σ this; simpl.
  - by split.
  - assert (Ho : CV_VERSION_GREATER_EQUAL cfg 3 3 0 = false ∨ is_load o = false).
    { destruct Hquiet as [? | Hall]; [by left | right].
      simpl in Hall. apply andb_true_iff in Hall as [Ho _].
      by apply negb_true_iff in Ho. }
    assert (Hops : CV_VERSION_GREATER_EQUAL cfg 3 3 0 = false
                   ∨ forallb (λ o, negb (is_load o)) ops = true).
    { destruct Hquiet as [? | Hall]; [by left | right].
      simpl in Hall. by apply andb_true_iff in Hall as [_ ?]. }
    destruct (Hop o σ this Ho) as [Hthis Htrace].
    specialize (IH Hops (r_world (run L (op_body cfg o) σ this))
                  (r_this (run L (op_body cfg o) σ this))).
    destruct (run_ops L cfg ops _ _) as [[tr σ'] this']. simpl in *.
    rewrite Hthis in IH. destruct IH as [-> Hrest].
    split; [done |]. by apply Forall_app.
Qed.

Lemma session_call_count (ops : list Op) :
  (∀ o σ (this : W),
     length (r_trace (run L (op_body cfg o) σ this)) = if forwards o then 1 else 0) →
  ∀ σ (this : W),
    length (run_ops L cfg ops σ this).1.1 = length (filter (λ o, forwards o = true) ops).
Proof.
  intros Hop. induction ops as [| o ops IH]; intros σ this; simpl; [done |].
  specialize (Hop o σ this).
  specialize (IH (r_world (run L (op_body cfg o) σ this))
                (r_this (run L (op_body cfg o) σ this))).
  destruct (run_ops L cfg ops _ _) as [[tr σ'] this']. simpl in *.
  rewrite length_app, Hop, IH, filter_cons.
  destruct (forwards o); by case_decide.
Qed.

End Sessions.

Ltac each_entry_point o :=
  destruct o as [path | path |]; unfold op_body; unfold_wrapper.

(** X6: below OpenCV 3.3.0, or as long as the host does not call [load], a
    wrapper keeps its handle through any sequence of entry points, failed
    calls included, and every native call of the session is made on that one
    handle. *)
Theorem handle_kept_across_session cfg (ops : list Op)
    (Hquiet : CV_VERSION_GREATER_EQUAL cfg 3 3 0 = false
              ∨ forallb (λ o, negb (is_load o)) ops = true) :
  each_face_recognizer (λ W _, ∀ (L : NativeLibrary) σ (this : W),
    (run_ops L cfg ops σ this).2 = this
    ∧ Forall (λ c, receiver c = Some (handle this)) (run_ops L cfg ops σ this).1.1).
Proof.
  split; intros L σ this; (apply session_keeps_handle; [| exact Hquiet]);
    clear; intros o σ this [Hversion | Hload]; each_entry_point o;
    try discriminate Hload; try rewrite Hversion;
    try (native_answer; by repeat constructor); by repeat constructor.
Qed.

Lemma handle_kept_across_session_witness :
  (CV_VERSION_GREATER_EQUAL (mkConfig 3 2 0) 3 3 0 = false
   ∨ forallb (λ o, negb (is_load o))
       [OpSave "model.yml"; OpLoad "model.yml"; OpGetFaceRecognizer; OpLoad "none.yml"]
     = true)
  ∧ (run_ops MemLib.lib (mkConfig 3 2 0)
       [OpSave "model.yml"; OpLoad "model.yml"; OpGetFaceRecognizer; OpLoad "none.yml"]
       MemLib.σ0 (EigenFaceRecognizer.mk (mkPtr (Some 1)))).2
    = EigenFaceRecognizer.mk (mkPtr (Some 1)).
Proof.
  split; [by left |].
  apply (proj1 (handle_kept_across_session (mkConfig 3 2 0)
                  [OpSave "model.yml"; OpLoad "model.yml"; OpGetFaceRecognizer;
                   OpLoad "none.yml"]
                  (or_introl eq_refl))).
Defined.

(** X7: in any session, at any version and against any library, the number
    of native calls is the number of [save] and [load] entry points the host
    invoked: each makes its one call, whether earlier calls failed or not, and
    [getFaceRecognizer] makes none. *)
Theorem one_native_call_per_forwarding_entry_point :
  each_face_recognizer (λ W _, ∀ (L : NativeLibrary) cfg (ops : list Op) σ (this : W),
    length (run_ops L cfg ops σ this).1.1
    = length (filter (λ o, forwards o = true) ops)).
Proof.
  split; intros L cfg ops; apply session_call_count;
    intros o σ this; each_entry_point o; try by_branch cfg;
    try (native_answer; reflexivity); reflexivity.
Qed.


(** X9: what follows a [load] uses what [load] left.  From OpenCV 3.3.0 on,
    once [load(path)] has returned, [getFaceRecognizer] returns the handle
    [cv::Algorithm::load<T>(path)] gave and a following [save] is made on that
    handle; below 3.3.0 both still use the handle held before.  When the
    native load raises, nothing follows. *)
Theorem load_then_use :
  each_face_recognizer (λ W _, ∀ cfg (L : NativeLibrary) σ (this : W) path path',
    returned_value (r_outcome (run L (load cfg path ;; getFaceRecognizer) σ this))
      = (if CV_VERSION_GREATER_EQUAL cfg 3 3 0
         then statically_loaded L σ algo path
         else match (exec L (FaceRecognizer_load (handle this) path) σ).2 with
              | inr _ => Some (handle this)
              | inl _ => None
              end)
    ∧ r_trace (run L (load cfg path ;; save path') σ this)
      = (if CV_VERSION_GREATER_EQUAL cfg 3 3 0
         then Algorithm_load algo path
              :: match statically_loaded L σ algo path with
                 | Some h => [FaceRecognizer_save h path']
                 | None => []
                 end
         else FaceRecognizer_load (handle this) path
              :: match (exec L (FaceRecognizer_load (handle this) path) σ).2 with
                 | inr _ => [FaceRecognizer_save (handle this) path']
                 | inl _ => []
                 end)).
Proof.
  each_wrapper; by_branch cfg; split; native_answer; try reflexivity;
    native_answer; reflexivity.
Qed.

(** ** The two module registrations together *)

(** X10: registering both modules on one target calls five member Init
    functions, all on that target and no one twice: Objdetect and XFeatures2d
    share no member, and the order is that of the two bodies. *)
Theorem modules_register_distinct_members :
  ∀ Host (member_init : MemberInit → Host → Host) (σ : Host) (target : Target),
    r_trace (run (init_library Host member_init)
               (Objdetect.Init target ;; XFeatures2d.Init target) σ ())
      = r_trace (run (init_library Host member_init) (Objdetect.Init target) σ ())
        ++ r_trace (run (init_library Host member_init) (XFeatures2d.Init target)
                      (r_world (run (init_library Host member_init)
                                  (Objdetect.Init target) σ ())) ())
    ∧ NoDup (r_trace (run (init_library Host member_init)
                        (Objdetect.Init target ;; XFeatures2d.Init target) σ ()))
    ∧ Forall (λ c, init_target c = target)
        (r_trace (run (init_library Host member_init)
                    (Objdetect.Init target ;; XFeatures2d.Init target) σ ())).
Proof.
  intros. split; [reflexivity |]. split.
  - simpl.
    repeat (apply NoDup_cons; split;
            [rewrite ?not_elem_of_cons; repeat split;
             (discriminate || apply not_elem_of_nil) |]).
    apply NoDup_nil_2.
  - by repeat constructor.
Qed.

(** X11: the two ways of loading never mix.  In any session of a wrapper
    compiled at one version, the member [load] of the library is called only
    below OpenCV 3.3.0 and the static [cv::Algorithm::load<T>] only from 3.3.0
    on, and then always for the wrapper's own algorithm. *)
Theorem loads_follow_the_build :
  each_face_recognizer (λ W _, ∀ (L : NativeLibrary) cfg (ops : list Op) σ (this : W),
    Forall (call_in_build cfg algo) (run_ops L cfg ops σ this).1.1).
Proof.
  split; intros L cfg ops; induction ops as [| o ops IH]; intros σ this; simpl;
    try (by constructor).
  all: specialize (IH (r_world (run L (op_body cfg o) σ this))
                     (r_this (run L (op_body cfg o) σ this)));
    destruct (run_ops L cfg ops _ _) as [[tr σ'] this']; simpl in *;
    apply Forall_app; (split; [| exact IH]); clear IH;
    each_entry_point o; try by_branch cfg;
    try (native_answer; by repeat constructor); by repeat constructor.
Qed.

(** ** All the headers in one translation unit *)

Ltac next_header Hguards :=
  rewrite preprocess_app;
  rewrite ?EigenFaceRecognizer_h_pass, ?LBPHFaceRecognizer_h_pass,
    ?TrackerMOSSE_h_pass, ?TrackerGOTURN_h_pass;
  rewrite ?guard_of_another_header by done;
  rewrite ?(bool_decide_eq_false_2 _ Hguards);
  cbn [fst snd andb negb app].

(** X12: a translation unit that includes the four headers for the first time
    gets the two face recognizer classes at every OpenCV version, TrackerMOSSE
    in addition from 3.4.0 on and TrackerGOTURN from 3.2.0 on, each once. *)
Theorem all_headers_in_one_unit cfg (macros : gset string) :
  Forall (λ g, g ∉ macros) header_guards →
  items_of cfg (concat wrapper_headers) macros
  = [ClassDef EigenFaceRecognizer_class; ClassDef LBPHFaceRecognizer_class]
    ++ (if CV_VERSION_GREATER_EQUAL cfg 3 4 0 then [ClassDef TrackerMOSSE_class] else [])
    ++ (if CV_VERSION_GREATER_EQUAL cfg 3 2 0 then [ClassDef TrackerGOTURN_class] else []).
Proof.
  intros Hguards.
  apply Forall_cons in Hguards as [Heigen Hguards].
  apply Forall_cons in Hguards as [Hlbph Hguards].
  apply Forall_cons in Hguards as [Hmosse Hguards].
  apply Forall_cons in Hguards as [Hgoturn _].
  unfold items_of, wrapper_headers. cbn [concat]. rewrite app_nil_r.
  next_header Heigen. next_header Hlbph. next_header Hmosse.
  destruct (CV_VERSION_GREATER_EQUAL cfg 3 4 0); cbn [fst snd andb negb app];
    rewrite ?TrackerGOTURN_h_pass;
    rewrite ?guard_of_another_header by done;
    rewrite (bool_decide_eq_false_2 _ Hgoturn);
    by destruct (CV_VERSION_GREATER_EQUAL cfg 3 2 0).
Qed.

Lemma all_headers_in_one_unit_witness :
  Forall (λ g, g ∉@{gset string} ∅) header_guards
  ∧ items_of (mkConfig 3 3 1) (concat wrapper_headers) ∅
    = [ClassDef EigenFaceRecognizer_class; ClassDef LBPHFaceRecognizer_class;
       ClassDef TrackerGOTURN_class].
Proof.
  assert (Hfresh : Forall (λ g, g ∉@{gset string} ∅) header_guards)
    by (repeat constructor; apply not_elem_of_empty).
  split; [exact Hfresh |].
  exact (all_headers_in_one_unit (mkConfig 3 3 1) ∅ Hfresh).
Defined.
